(** * Personal library manager: the store layer of [main.py]

    A shallow embedding of [PersonalLibraryManager] and of the part of the
    SQL engine its six statements rely on.

    - The table [books] is the list of its rows in rowid order, the order
      in which an unindexed scan visits them.
    - [sqlite_sequence] is the AUTOINCREMENT counter of the table: the
      largest rowid ever handed out.
    - A statement that violates [CHECK(read IN (0,1))] raises
      [IntegrityError]; the transaction is rolled back, so the database is
      the one before the call.
    - An int parameter that does not fit the 64 bits of an INTEGER raises
      [OverflowError] when it is bound, before the statement runs.
    - Text is a string of code points below 256.  [str.lower] of Python is
      modelled in full on that range; [LOWER] and [LIKE] of the engine only
      fold the letters A-Z, and [LIKE] reads its two operands as C strings,
      up to the first NUL.  The engine holds text as UTF-8 and refuses a
      [LIKE] pattern of more than 50000 bytes with [OperationalError].
    - The completion rate is an IEEE binary64 value, computed with the
      primitive floats.

    Failures of the storage itself (an unreadable file, a full disk, an
    exhausted rowid space, a text beyond the length limit of the engine)
    are outside the model. *)

From Stdlib Require Import ZArith List String Ascii Bool Lia Sorted.
From Stdlib Require Import PrimFloat SpecFloat FloatOps.
Import ListNotations.

Local Open Scope string_scope.
Local Open Scope list_scope.
Local Open Scope Z_scope.

(** ** Python values that cross the store boundary *)

(** What a caller may pass as [read_status]: the check box yields a bool,
    any other caller may pass an int. *)
Inductive pyval : Type :=
| PyBool (b : bool)
| PyInt (z : Z).

(** [int(read_status)] *)
Definition py_int (v : pyval) : Z :=
  match v with
  | PyBool true => 1
  | PyBool false => 0
  | PyInt z => z
  end.

(** A Python number as [get_statistics] returns it in third position:
    the literal [0] or a float. *)
Inductive pynum : Type :=
| NumInt (z : Z)
| NumFloat (f : float).

(** The nearest binary64 value of an integer. *)
Definition float_of_Z (z : Z) : float :=
  SF2Prim (binary_normalize prec emax z 0 false).

(** [a / b * 100] on two ints: true division, then a float product.  Both
    ints are counts of rows; below 2^53 they convert without rounding and
    the quotient of the two floats is the true division of Python. *)
Definition py_percentage (a b : Z) : float :=
  (float_of_Z a / float_of_Z b * float_of_Z 100)%float.

Definition in_range (lo hi : N) (c : ascii) : bool :=
  let n := N_of_ascii c in (lo <=? n)%N && (n <=? hi)%N.

(** [str.lower] on one code point below 256: A-Z, and the Latin-1 capitals
    U+00C0..U+00DE except the multiplication sign U+00D7. *)
Definition py_lower_char (c : ascii) : ascii :=
  if in_range 65 90 c
     || (in_range 192 222 c && negb (N_of_ascii c =? 215)%N)
  then ascii_of_N (N_of_ascii c + 32)
  else c.

Fixpoint py_lower (s : string) : string :=
  match s with
  | EmptyString => EmptyString
  | String c s' => String (py_lower_char c) (py_lower s')
  end.

(** ** The SQL engine *)

Module Sqlite.

(** One row of [books], columns in declaration order. *)
Record row : Type := mkRow {
  col_id : Z;
  col_title : string;
  col_author : string;
  col_year : Z;
  col_genre : string;
  col_read : Z
}.

Record db : Type := mkDb {
  books : list row;
  sqlite_sequence : Z
}.

(** The file right after [CREATE TABLE IF NOT EXISTS] on a new database. *)
Definition empty_db : db := mkDb [] 0.

Inductive exn : Type := IntegrityError | OverflowError | OperationalError.

Inductive result (A : Type) : Type :=
| Ok (a : A)
| Err (e : exn).
Arguments Ok {A} a.
Arguments Err {A} e.

(** The ints that the binding converts to an INTEGER. *)
Definition int64 (z : Z) : bool := (- 2 ^ 63 <=? z) && (z <? 2 ^ 63).

(** [CHECK(read IN (0,1))] *)
Definition check_read (v : Z) : bool := (v =? 0) || (v =? 1).

Definition set_read (v : Z) (r : row) : row :=
  mkRow (col_id r) (col_title r) (col_author r) (col_year r) (col_genre r) v.

(** [title = ?] under the BINARY collation. *)
Definition title_is (t : string) (r : row) : bool := (col_title r =? t)%string.

(** [LOWER] folds A-Z only. *)
Definition lower_char (c : ascii) : ascii :=
  if in_range 65 90 c then ascii_of_N (N_of_ascii c + 32) else c.

Fixpoint lower (s : string) : string :=
  match s with
  | EmptyString => EmptyString
  | String c s' => String (lower_char c) (lower s')
  end.

(** A text as C code reads it: up to the first NUL. *)
Fixpoint cstr (s : string) : string :=
  match s with
  | EmptyString => EmptyString
  | String c s' => if (c =? Ascii.zero)%char then EmptyString else String c (cstr s')
  end.

(** The matcher behind LIKE without ESCAPE: ["%"] stands for any run of
    characters, ["_"] for any one character, any other character for
    itself up to the case of A-Z. *)
Fixpoint patternCompare (p s : string) : bool :=
  match p with
  | EmptyString =>
      match s with EmptyString => true | String _ _ => false end
  | String c p' =>
      if (c =? "%")%char then
        (fix star (s : string) : bool :=
           patternCompare p' s
           || match s with
              | EmptyString => false
              | String _ s' => star s'
              end) s
      else
        match s with
        | EmptyString => false
        | String d s' =>
            ((c =? "_")%char || (lower_char c =? lower_char d)%char)
            && patternCompare p' s'
        end
  end.

(** The bytes of one code point below 256 in UTF-8. *)
Definition utf8_bytes (c : ascii) : Z := if in_range 0 127 c then 1 else 2.

(** The length of a text in bytes, as the engine counts it. *)
Fixpoint utf8_length (s : string) : Z :=
  match s with
  | EmptyString => 0
  | String c s' => utf8_bytes c + utf8_length s'
  end.

(** The default of SQLITE_LIMIT_LIKE_PATTERN_LENGTH. *)
Definition like_pattern_limit : Z := 50000.

(** [s LIKE p]: a pattern above the limit is refused before it is
    matched. *)
Definition like (p s : string) : result bool :=
  if like_pattern_limit <? utf8_length p then Err OperationalError
  else Ok (patternCompare (cstr p) (cstr s)).

(** [a OR b] in a WHERE clause: [b] is not evaluated once [a] holds. *)
Definition sql_or (a b : result bool) : result bool :=
  match a with
  | Err e => Err e
  | Ok true => Ok true
  | Ok false => b
  end.

(** The largest rowid in the table, 0 when it is empty. *)
Definition max_rowid (t : list row) : Z :=
  fold_right (fun r m => Z.max (col_id r) m) 0 t.

(** The rowid AUTOINCREMENT hands out next. *)
Definition next_rowid (d : db) : Z :=
  Z.max (sqlite_sequence d) (max_rowid (books d)) + 1.

(** Insertion into the rowid tree: before the first row with a larger key. *)
Fixpoint insert_row (r : row) (t : list row) : list row :=
  match t with
  | [] => [r]
  | x :: t' =>
      if col_id r <? col_id x then r :: x :: t' else x :: insert_row r t'
  end.

(** [INSERT INTO books (title, author, year, genre, read) VALUES (...)] *)
Definition insert (t a : string) (y : Z) (g : string) (rd : Z) (d : db)
  : result unit * db :=
  if negb (int64 y && int64 rd) then (Err OverflowError, d)
  else if check_read rd then
    let i := next_rowid d in
    (Ok tt, mkDb (insert_row (mkRow i t a y g rd) (books d)) i)
  else (Err IntegrityError, d).

(** [SELECT * FROM books WHERE p], rows in scan order. *)
Definition select (p : row -> bool) (d : db) : list row :=
  filter p (books d).

(** [SELECT * FROM books WHERE p] for a condition that may fail: the
    statement ends at the first row on which it does. *)
Fixpoint select_where (p : row -> result bool) (t : list row)
  : result (list row) :=
  match t with
  | [] => Ok []
  | r :: t' =>
      match p r with
      | Err e => Err e
      | Ok b =>
          match select_where p t' with
          | Err e => Err e
          | Ok rs => Ok (if b then r :: rs else rs)
          end
      end
  end.

(** [DELETE FROM books WHERE p]; the count is [cursor.rowcount]. *)
Definition delete (p : row -> bool) (d : db) : Z * db :=
  (Z.of_nat (List.length (filter p (books d))),
   mkDb (filter (fun r => negb (p r)) (books d)) (sqlite_sequence d)).

(** [UPDATE books SET read = v WHERE p]; the count is [cursor.rowcount]. *)
Definition update_read (v : Z) (p : row -> bool) (d : db) : result Z * db :=
  if negb (int64 v) then (Err OverflowError, d)
  else if existsb p (books d) && negb (check_read v)
  then (Err IntegrityError, d)
  else
    (Ok (Z.of_nat (List.length (filter p (books d)))),
     mkDb (map (fun r => if p r then set_read v r else r) (books d))
          (sqlite_sequence d)).

(** [SELECT COUNT( * ) FROM books WHERE p] *)
Definition count (p : row -> bool) (d : db) : Z :=
  Z.of_nat (List.length (filter p (books d))).

End Sqlite.

Import Sqlite.

(** ** PersonalLibraryManager *)

Definition add_book (title author : string) (year : Z) (genre : string)
  (read_status : pyval) (d : db) : result unit * db :=
  insert title author year genre (py_int read_status) d.

Definition remove_book (title : string) (d : db) : result bool * db :=
  let (rowcount, d') := delete (title_is title) d in
  (Ok (0 <? rowcount), d').

Definition search_book (query : string) (d : db) : result (list row) :=
  let pat := ("%" ++ py_lower query ++ "%")%string in
  select_where (fun r => sql_or (like pat (lower (col_title r)))
                                (like pat (lower (col_author r))))
               (books d).

(** [None] is Python's [None]; [fetchone] is the head of the selection. *)
Definition mark_as_read_unread (title : string) (d : db)
  : result (option Z) * db :=
  match map col_read (select (title_is title) d) with
  | r0 :: _ =>
      let new_status := 1 - r0 in
      match update_read new_status (title_is title) d with
      | (Ok _, d') => (Ok (Some new_status), d')
      | (Err e, d') => (Err e, d')
      end
  | [] => (Ok None, d)
  end.

Definition get_library (d : db) : list row :=
  select (fun _ => true) d.

Definition get_statistics (d : db) : Z * Z * pynum :=
  let total_books := count (fun _ => true) d in
  let read_books := count (fun r => col_read r =? 1) d in
  let percentage_read :=
    if total_books =? 0 then NumInt 0
    else NumFloat (py_percentage read_books total_books) in
  (total_books, read_books, percentage_read).

(** ** Properties of a database *)

(** The CHECK constraint holds of every row. *)
Definition read_ok (d : db) : Prop :=
  Forall (fun r => col_read r = 0 \/ col_read r = 1) (books d).

(** The rows are in strictly ascending rowid order: the primary key. *)
Definition ids_sorted (d : db) : Prop :=
  StronglySorted (fun a b => col_id a < col_id b) (books d).

(** No row carries a rowid that was not handed out. *)
Definition ids_issued (d : db) : Prop :=
  Forall (fun r => 0 < col_id r <= sqlite_sequence d) (books d).

Definition wf (d : db) : Prop :=
  ids_sorted d /\ ids_issued d /\ read_ok d.

(** One call of a method that writes. *)
Inductive call : Type :=
| CallAdd (title author : string) (year : Z) (genre : string) (read_status : pyval)
| CallRemove (title : string)
| CallToggle (title : string).

(** The database a call leaves behind, whether it returned or raised. *)
Definition run (c : call) (d : db) : db :=
  match c with
  | CallAdd t a y g rs => snd (add_book t a y g rs d)
  | CallRemove t => snd (remove_book t d)
  | CallToggle t => snd (mark_as_read_unread t d)
  end.

(** The databases the manager can produce from a new file. *)
Inductive reachable : db -> Prop :=
| reach_empty : reachable empty_db
| reach_call c d : reachable d -> reachable (run c d).

(** Truthiness of a stored flag, as the front end reads [book[5]]. *)
Definition is_read (r : row) : bool := negb (col_read r =? 0).

(** The ids of the rows whose flag differs between two scans of the table. *)
Fixpoint changed_ids (before after : list row) : list Z :=
  match before, after with
  | b :: bs, a :: az =>
      if col_read b =? col_read a then changed_ids bs az
      else col_id b :: changed_ids bs az
  | _, _ => []
  end.

(** ** The search of the specification *)

(** [q] starts [s], characters compared after [fold]. *)
Fixpoint prefix_upto (fold : ascii -> ascii) (q s : string) : bool :=
  match q, s with
  | EmptyString, _ => true
  | String _ _, EmptyString => false
  | String c q', String e s' =>
      (fold c =? fold e)%char && prefix_upto fold q' s'
  end.

(** [q] occurs somewhere in [s], characters compared after [fold]. *)
Fixpoint occurs_upto (fold : ascii -> ascii) (q s : string) : bool :=
  prefix_upto fold q s
  || match s with
     | EmptyString => false
     | String _ s' => occurs_upto fold q s'
     end.

(** The rows whose title or author contains the query, letter case aside:
    the search as the specification words it. *)
Definition spec_search (query : string) (d : db) : list row :=
  filter (fun r => occurs_upto py_lower_char query (col_title r)
                   || occurs_upto py_lower_char query (col_author r))
         (books d).



(** The rows that match the pattern of a query, once the pattern is
    accepted. *)
Definition matching_rows (query : string) (d : db) : list row :=
  let pat := ("%" ++ py_lower query ++ "%")%string in
  filter (fun r => patternCompare (cstr pat) (cstr (lower (col_title r)))
                   || patternCompare (cstr pat) (cstr (lower (col_author r))))
         (books d).

(** The longest query, in bytes, whose pattern the engine accepts. *)
Definition longest_query : Z := like_pattern_limit - 2.

(** Exact arithmetic on a binary64 number: [p] is within 2^-40 of
    [100 * k / n], the percentage as the specification words it. *)
Definition near_percentage (k n : Z) (p : float) : bool :=
  match Prim2SF p with
  | S754_zero _ => k =? 0
  | S754_finite false m e =>
      if 0 <=? e
      then Z.abs (Z.pos m * 2 ^ e * n - 100 * k) * 2 ^ 40 <=? n
      else Z.abs (Z.pos m * n - 100 * k * 2 ^ (- e)) * 2 ^ 40 <=? n * 2 ^ (- e)
  | _ => false
  end.

(** [near_percentage] holds of what the code computes, for every count of
    read books in every table of up to [rows] rows. *)
Definition percentages_near (rows : nat) : bool :=
  forallb (fun n =>
             forallb (fun k => near_percentage (Z.of_nat k) (Z.of_nat n)
                                 (py_percentage (Z.of_nat k) (Z.of_nat n)))
                     (seq 0 (S n)))
          (seq 1 rows).


(** ** Sample data *)

Definition dune (i rd : Z) : row := mkRow i "Dune" "Herbert" 1965 "Sci-Fi" rd.

Definition hobbit : row := mkRow 1 "The Hobbit" "Tolkien" 1937 "Fantasy" 0.

(** Two copies of one title, both unread. *)
Definition two_dunes : db := mkDb [dune 1 0; dune 2 0] 2.

(** Two copies of one title, the first read, the second not. *)
Definition mixed_dunes : db := mkDb [dune 1 1; dune 2 0] 2.

Definition one_dune : db := mkDb [dune 1 0] 1.

(** A shelf of two titles, after a third book was removed. *)
Definition shelf : db := mkDb [hobbit; dune 3 1] 3.


(** A title that starts with U+00C9, a capital letter outside A-Z. *)
Definition ecole : row :=
  mkRow 1 (String (ascii_of_N 201) "cole") "Anon" 1900 "Essay" 0.

Definition one_ecole : db := mkDb [ecole] 1.



(** ** The script around the manager *)

(** [library.db] before a run of the script: [None] when it has no table
    [books] yet. *)
Definition create_table (file : option db) : db :=
  match file with
  | Some d => d
  | None => empty_db
  end.

(** Truthiness of a str: any text but the empty one. *)
Definition py_truthy (s : string) : bool := negb (s =? "")%string.

(** What a run of the script tells the user. *)
Inductive feedback : Type :=
| AddedSuccessfully (title : string)
| FillAllFields
| RemovedSuccessfully (title : string)
| BookNotFound
| EnterValidTitle
| NoMatchingBooks
| Listing (rows : list row)
| Rerun
| Idle.

(** The guard of the Add Book tab. *)
Definition form_valid (title author : string) (year : Z) (genre : string) : bool :=
  py_truthy title && py_truthy author && py_truthy genre
  && (1000 <=? year) && (year <=? 9999).

(** The Add Book tab once its button is pressed. *)
Definition add_book_tab (title author : string) (year : Z) (genre : string)
  (read_status : bool) (d : db) : result feedback * db :=
  if form_valid title author year genre then
    match add_book title author year genre (PyBool read_status) d with
    | (Ok _, d') => (Ok (AddedSuccessfully title), d')
    | (Err e, d') => (Err e, d')
    end
  else (Ok FillAllFields, d).

(** The Remove Book tab once its button is pressed. *)
Definition remove_book_tab (title : string) (d : db) : result feedback * db :=
  if py_truthy title then
    match remove_book title d with
    | (Ok true, d') => (Ok (RemovedSuccessfully title), d')
    | (Ok false, d') => (Ok BookNotFound, d')
    | (Err e, d') => (Err e, d')
    end
  else (Ok EnterValidTitle, d).

(** The Search Book tab for the text in its input. *)
Definition search_book_tab (query : string) (d : db) : result feedback :=
  if py_truthy query then
    match search_book query d with
    | Ok [] => Ok NoMatchingBooks
    | Ok (r :: rs) => Ok (Listing (r :: rs))
    | Err e => Err e
    end
  else Ok Idle.

(** The Home tab when the button of the [k]-th listed book is pressed:
    the toggle is called with the title of that book. *)
Definition home_tab_click (k : nat) (d : db) : result feedback * db :=
  match nth_error (get_library d) k with
  | Some book =>
      match mark_as_read_unread (col_title book) d with
      | (Ok _, d') => (Ok Rerun, d')
      | (Err e, d') => (Err e, d')
      end
  | None => (Ok Idle, d)
  end.

(** What the user does between two runs of the script. *)
Inductive event : Type :=
| PressAdd (title author : string) (year : Z) (genre : string) (read_status : bool)
| PressRemove (title : string)
| PressToggle (k : nat)
| TypeQuery (query : string).

(** One run of the script: the manager is built, which creates the table
    when it is missing, then the tab of the event acts. *)
Definition script (file : option db) (ev : event) : result feedback * db :=
  let d := create_table file in
  match ev with
  | PressAdd t a y g rs => add_book_tab t a y g rs d
  | PressRemove t => remove_book_tab t d
  | PressToggle k => home_tab_click k d
  | TypeQuery q => (search_book_tab q d, d)
  end.

(** A session: the runs one after the other on the same file; the outcome
    of every run, and the file at the end. *)
Fixpoint session (evs : list event) (file : option db)
  : list (result feedback) * option db :=
  match evs with
  | [] => ([], file)
  | ev :: evs' =>
      let (out, d) := script file ev in
      let (outs, file') := session evs' (Some d) in
      (out :: outs, file')
  end.

(** The event types no query longer than the engine accepts. *)
Definition short_query (ev : event) : bool :=
  match ev with
  | TypeQuery q => utf8_length q <=? longest_query
  | _ => true
  end.

Definition short_queries (evs : list event) : bool := forallb short_query evs.

(** The event removes the title [t]. *)
Definition removes (t : string) (ev : event) : bool :=
  match ev with
  | PressRemove t' => (t' =? t)%string
  | _ => false
  end.



(** A row without its flag. *)
Definition forget_read (r : row) : row := set_read 0 r.

(** The text is made of ["%"] only. *)
Fixpoint all_percent (q : string) : bool :=
  match q with
  | EmptyString => true
  | String c q' => (c =? "%")%char && all_percent q'
  end.

(** A few calls in a row, on the database each leaves behind. *)
Definition run_all (cs : list call) (d : db) : db :=
  fold_left (fun d c => run c d) cs d.

(** * Facts about the engine *)

Section TableFacts.

Lemma filter_everything (A : Type) (l : list A) :
  filter (fun _ => true) l = l.
Proof. induction l as [|x l IH]; simpl; [reflexivity | now rewrite IH]. Qed.

Lemma filter_nothing (A : Type) (p : A -> bool) (l : list A) :
  (forall x, In x l -> p x = false) -> filter p l = [].
Proof.
  induction l as [|x l IH]; simpl; intros H; [reflexivity|].
  rewrite (H x (or_introl eq_refl)). apply IH. intros y Hy. apply H. now right.
Qed.

Lemma filter_keeps_all (A : Type) (p : A -> bool) (l : list A) :
  (forall x, In x l -> p x = true) -> filter p l = l.
Proof.
  induction l as [|x l IH]; simpl; intros H; [reflexivity|].
  rewrite (H x (or_introl eq_refl)). f_equal. apply IH. intros y Hy. apply H. now right.
Qed.

Lemma max_rowid_bound (t : list row) (r : row) :
  In r t -> col_id r <= max_rowid t.
Proof.
  induction t as [|x t IH]; simpl; [tauto|].
  intros [->|H]; [lia | specialize (IH H); lia].
Qed.

Lemma next_rowid_above_rows (d : db) (r : row) :
  In r (books d) -> col_id r < next_rowid d.
Proof. intros H. apply max_rowid_bound in H. unfold next_rowid. lia. Qed.

Lemma next_rowid_above_sequence (d : db) : sqlite_sequence d < next_rowid d.
Proof. unfold next_rowid. lia. Qed.

(** A key above all keys goes to the end of the tree. *)
Lemma insert_row_largest (r : row) (t : list row) :
  (forall x, In x t -> col_id x < col_id r) -> insert_row r t = t ++ [r].
Proof.
  induction t as [|x t IH]; simpl; intros H; [reflexivity|].
  assert (Hx : col_id x < col_id r) by (apply H; now left).
  destruct (Z.ltb_spec (col_id r) (col_id x)); [lia|].
  f_equal. apply IH. intros y Hy. apply H. now right.
Qed.

Lemma check_read_iff (v : Z) : check_read v = true <-> v = 0 \/ v = 1.
Proof. unfold check_read. rewrite orb_true_iff, !Z.eqb_eq. tauto. Qed.

Lemma check_read_int64 (v : Z) : check_read v = true -> int64 v = true.
Proof. rewrite check_read_iff. intros [-> | ->]; reflexivity. Qed.

Lemma insert_ok (t a : string) (y : Z) (g : string) (rd : Z) (d : db) :
  int64 y = true ->
  check_read rd = true ->
  insert t a y g rd d =
    (Ok tt, mkDb (books d ++ [mkRow (next_rowid d) t a y g rd]) (next_rowid d)).
Proof.
  intros Hy H. unfold insert. rewrite Hy, (check_read_int64 rd H), H.
  cbn [andb negb]. do 2 f_equal.
  apply insert_row_largest. intros x Hx. simpl. now apply next_rowid_above_rows.
Qed.

(** An INSERT appends its row or raises and changes nothing. *)
Lemma insert_outcome (t a : string) (y : Z) (g : string) (rd : Z) (d : db) :
  (check_read rd = true
   /\ insert t a y g rd d =
        (Ok tt, mkDb (books d ++ [mkRow (next_rowid d) t a y g rd]) (next_rowid d)))
  \/ (exists e, insert t a y g rd d = (Err e, d)).
Proof.
  destruct (int64 y) eqn:Hy.
  - destruct (check_read rd) eqn:Hc.
    + left. split; [reflexivity|]. now apply insert_ok.
    + right. unfold insert. rewrite Hy, Hc.
      destruct (int64 rd); cbn [andb negb]; eexists; reflexivity.
  - right. unfold insert. rewrite Hy. cbn [andb negb]. eexists; reflexivity.
Qed.

Lemma map_col_id_update (v : Z) (p : row -> bool) (l : list row) :
  map col_id (map (fun r => if p r then set_read v r else r) l) = map col_id l.
Proof.
  rewrite map_map. apply map_ext. intros r. now destruct (p r).
Qed.

Lemma sorted_filter (p : row -> bool) (l : list row) :
  StronglySorted (fun a b => col_id a < col_id b) l ->
  StronglySorted (fun a b => col_id a < col_id b) (filter p l).
Proof.
  induction 1 as [|x l Hs IH Hx]; simpl; [constructor|].
  destruct (p x); [|exact IH].
  constructor; [exact IH|].
  rewrite Forall_forall in *. intros y Hy. apply Hx.
  apply filter_In in Hy. tauto.
Qed.

Lemma sorted_update (v : Z) (p : row -> bool) (l : list row) :
  StronglySorted (fun a b => col_id a < col_id b) l ->
  StronglySorted (fun a b => col_id a < col_id b)
    (map (fun r => if p r then set_read v r else r) l).
Proof.
  induction 1 as [|x l Hs IH Hx]; simpl; [constructor|].
  constructor; [exact IH|].
  rewrite Forall_forall in *. intros y Hy.
  apply in_map_iff in Hy. destruct Hy as (z & <- & Hz).
  specialize (Hx z Hz). destruct (p x), (p z); simpl; exact Hx.
Qed.

Lemma sorted_snoc (l : list row) (r : row) :
  StronglySorted (fun a b => col_id a < col_id b) l ->
  (forall x, In x l -> col_id x < col_id r) ->
  StronglySorted (fun a b => col_id a < col_id b) (l ++ [r]).
Proof.
  induction 1 as [|x l Hs IH Hx]; simpl; intros H.
  - constructor; constructor.
  - constructor.
    + apply IH. intros y Hy. apply H. now right.
    + rewrite Forall_forall in *. intros y Hy.
      apply in_app_or in Hy. destruct Hy as [Hy|[<-|[]]].
      * now apply Hx.
      * apply H. now left.
Qed.

Lemma sorted_ids_nodup (l : list row) :
  StronglySorted (fun a b => col_id a < col_id b) l -> NoDup (map col_id l).
Proof.
  induction 1 as [|x l Hs IH Hx]; simpl; constructor; [|exact IH].
  intros Hin. apply in_map_iff in Hin. destruct Hin as (y & Hy & Hin).
  rewrite Forall_forall in Hx. specialize (Hx y Hin). lia.
Qed.

End TableFacts.

(** * The invariants of the table *)

Section Invariants.

Lemma update_read_outcome (v : Z) (p : row -> bool) (d : db) :
  read_ok d ->
  v = 0 \/ v = 1 ->
  update_read v p d =
    (Ok (Z.of_nat (List.length (filter p (books d)))),
     mkDb (map (fun r => if p r then set_read v r else r) (books d))
          (sqlite_sequence d)).
Proof.
  intros _ Hv. unfold update_read.
  apply check_read_iff in Hv. rewrite (check_read_int64 v Hv), Hv.
  cbn [negb]. now rewrite andb_false_r.
Qed.

(** What the toggle does on a table that obeys its CHECK constraint. *)
Lemma toggle_outcome (t : string) (d : db) :
  read_ok d ->
  mark_as_read_unread t d =
    match filter (title_is t) (books d) with
    | [] => (Ok None, d)
    | r0 :: _ =>
        (Ok (Some (1 - col_read r0)),
         mkDb (map (fun r => if title_is t r
                             then set_read (1 - col_read r0) r else r)
                   (books d))
              (sqlite_sequence d))
    end.
Proof.
  intros Hok. unfold mark_as_read_unread, select.
  destruct (filter (title_is t) (books d)) as [|r0 rest] eqn:E;
    cbn [map]; cbv zeta; [reflexivity|].
  assert (Hin : In r0 (books d)).
  { apply (proj1 (filter_In (title_is t) r0 (books d))). rewrite E. now left. }
  assert (Hr : col_read r0 = 0 \/ col_read r0 = 1).
  { unfold read_ok in Hok. rewrite Forall_forall in Hok. now apply Hok. }
  rewrite update_read_outcome; [reflexivity | exact Hok | lia].
Qed.

Lemma wf_empty : wf empty_db.
Proof. repeat split; constructor. Qed.

Lemma read_ok_add (t a : string) (y : Z) (g : string) (rs : pyval) (d : db) :
  read_ok d -> read_ok (snd (add_book t a y g rs d)).
Proof.
  intros H. unfold add_book.
  destruct (insert_outcome t a y g (py_int rs) d) as [(E & ->)|(e & ->)];
    [|exact H].
  unfold read_ok in *. cbn [snd books].
  apply Forall_app. split; [exact H|].
  constructor; [|constructor]. cbn [col_read]. now apply check_read_iff.
Qed.

Lemma read_ok_remove (t : string) (d : db) :
  read_ok d -> read_ok (snd (remove_book t d)).
Proof.
  unfold read_ok, remove_book, delete. simpl. rewrite !Forall_forall.
  intros H r Hr. apply filter_In in Hr. apply H. tauto.
Qed.

Lemma read_ok_toggle (t : string) (d : db) :
  read_ok d -> read_ok (snd (mark_as_read_unread t d)).
Proof.
  intros H. rewrite toggle_outcome by exact H.
  destruct (filter (title_is t) (books d)) as [|r0 rest] eqn:E; [exact H|].
  assert (Hin : In r0 (books d)).
  { apply (proj1 (filter_In (title_is t) r0 (books d))). rewrite E. now left. }
  unfold read_ok in *. cbn [snd books]. rewrite Forall_forall in *.
  intros r Hr. apply in_map_iff in Hr. destruct Hr as (x & <- & Hx).
  destruct (title_is t x); [|now apply H].
  unfold set_read. cbn [col_read]. specialize (H r0 Hin). lia.
Qed.

Lemma wf_add (t a : string) (y : Z) (g : string) (rs : pyval) (d : db) :
  wf d -> wf (snd (add_book t a y g rs d)).
Proof.
  intros (Hs & Hi & Hr). split; [|split]; [| |now apply read_ok_add].
  - unfold add_book.
    destruct (insert_outcome t a y g (py_int rs) d) as [(E & ->)|(e & ->)].
    + unfold ids_sorted. simpl.
      apply sorted_snoc; [exact Hs|]. intros x Hx. simpl.
      now apply next_rowid_above_rows.
    + exact Hs.
  - unfold add_book.
    destruct (insert_outcome t a y g (py_int rs) d) as [(E & ->)|(e & ->)].
    + unfold ids_issued in *. simpl.
      apply Forall_app. split.
      * rewrite Forall_forall in *. intros x Hx.
        pose proof (Hi x Hx). pose proof (next_rowid_above_sequence d). lia.
      * constructor; [|constructor]. simpl.
        pose proof (next_rowid_above_sequence d).
        assert (0 <= sqlite_sequence d \/ books d = []) as [H0|H0].
        { destruct (books d) as [|x l] eqn:Eb; [now right|left].
          inversion Hi; subst. lia. }
        -- lia.
        -- unfold next_rowid. rewrite H0. simpl. lia.
    + exact Hi.
Qed.

Lemma wf_remove (t : string) (d : db) : wf d -> wf (snd (remove_book t d)).
Proof.
  intros (Hs & Hi & Hr). split; [|split]; [| |now apply read_ok_remove].
  - unfold ids_sorted, remove_book, delete. simpl. now apply sorted_filter.
  - unfold ids_issued, remove_book, delete in *. simpl.
    rewrite Forall_forall in *. intros x Hx. apply filter_In in Hx.
    apply Hi. tauto.
Qed.

Lemma wf_toggle (t : string) (d : db) :
  wf d -> wf (snd (mark_as_read_unread t d)).
Proof.
  intros (Hs & Hi & Hr). split; [|split]; [| |now apply read_ok_toggle].
  - rewrite toggle_outcome by exact Hr.
    destruct (filter (title_is t) (books d)); [exact Hs|].
    unfold ids_sorted. simpl. now apply sorted_update.
  - rewrite toggle_outcome by exact Hr.
    destruct (filter (title_is t) (books d)); [exact Hi|].
    unfold ids_issued in *. simpl. rewrite Forall_forall in *.
    intros x Hx. apply in_map_iff in Hx. destruct Hx as (z & <- & Hz).
    specialize (Hi z Hz). now destruct (title_is t z).
Qed.

Lemma wf_run (c : call) (d : db) : wf d -> wf (run c d).
Proof.
  destruct c; simpl; [apply wf_add | apply wf_remove | apply wf_toggle].
Qed.

(** Every database the manager produces obeys the schema. *)
Lemma reachable_wf (d : db) : reachable d -> wf d.
Proof. induction 1; [apply wf_empty | now apply wf_run]. Qed.

End Invariants.

(** * Facts about LIKE and the two case foldings *)

Section LikeFacts.

Ltac all_chars c := destruct c as [[] [] [] [] [] [] [] []]; reflexivity.


Lemma py_lower_char_percent (c : ascii) :
  (py_lower_char c =? "%")%char = (c =? "%")%char.
Proof. all_chars c. Qed.


(** Below 128 the two foldings agree. *)
Lemma py_lower_char_ascii (c : ascii) :
  in_range 0 127 c = true -> py_lower_char c = lower_char c.
Proof. destruct c as [[] [] [] [] [] [] [] []]; intros H; try reflexivity; discriminate H. Qed.







Lemma like_percent (p s : string) :
  patternCompare (String "%" p) s =
    patternCompare p s
    || match s with
       | EmptyString => false
       | String _ s' => patternCompare (String "%" p) s'
       end.
Proof. destruct s; reflexivity. Qed.



(** A leading ["%"] may stand for nothing. *)
Lemma like_percent_skip (p s : string) :
  patternCompare p s = true -> patternCompare (String "%" p) s = true.
Proof. intros H. rewrite like_percent, H. reflexivity. Qed.

Lemma like_only_percent (s : string) : patternCompare "%" s = true.
Proof.
  induction s as [|c s IH]; [reflexivity|].
  rewrite like_percent, IH. apply orb_true_r.
Qed.








Lemma utf8_bytes_py_lower (c : ascii) :
  utf8_bytes (py_lower_char c) = utf8_bytes c.
Proof. all_chars c. Qed.

Lemma utf8_length_py_lower (q : string) :
  utf8_length (py_lower q) = utf8_length q.
Proof.
  induction q as [|c q IH]; [reflexivity|].
  cbn [py_lower utf8_length]. now rewrite utf8_bytes_py_lower, IH.
Qed.

Lemma utf8_length_append (a b : string) :
  utf8_length (a ++ b) = utf8_length a + utf8_length b.
Proof.
  induction a as [|c a IH]; [reflexivity|].
  cbn [append utf8_length]. rewrite IH. apply Z.add_assoc.
Qed.

(** The pattern is two bytes longer than the query. *)
Lemma pattern_length (q : string) :
  utf8_length ("%" ++ py_lower q ++ "%") = utf8_length q + 2.
Proof.
  rewrite !utf8_length_append, utf8_length_py_lower.
  change (utf8_length "%") with 1. lia.
Qed.

Lemma select_where_total (a b : row -> bool) (l : list row) :
  select_where (fun r => sql_or (Ok (a r)) (Ok (b r))) l
  = Ok (filter (fun r => a r || b r) l).
Proof.
  induction l as [|x l IH]; [reflexivity|].
  cbn [select_where filter]. rewrite IH.
  now destruct (a x), (b x).
Qed.

(** A query of at most [longest_query] bytes is searched for. *)
Lemma search_book_accepted (q : string) (d : db) :
  (utf8_length q <=? longest_query) = true ->
  search_book q d = Ok (matching_rows q d).
Proof.
  intros H. apply Z.leb_le in H. unfold longest_query in H.
  unfold search_book, matching_rows, like.
  assert (E : (like_pattern_limit <? utf8_length ("%" ++ py_lower q ++ "%"))
              = false).
  { apply Z.ltb_ge. rewrite pattern_length. lia. }
  rewrite E. apply select_where_total.
Qed.


End LikeFacts.

(** * Sample databases obey the schema *)

Section Samples.

Ltac wf_by_computation :=
  cbv [wf ids_sorted ids_issued read_ok books sqlite_sequence col_id col_read
       two_dunes mixed_dunes one_dune shelf dune hobbit];
  repeat split; repeat (first [lia | constructor]).

Lemma wf_two_dunes : wf two_dunes.
Proof. wf_by_computation. Qed.

Lemma wf_mixed_dunes : wf mixed_dunes.
Proof. wf_by_computation. Qed.

Lemma wf_one_dune : wf one_dune.
Proof. wf_by_computation. Qed.

Lemma wf_shelf : wf shelf.
Proof. wf_by_computation. Qed.

End Samples.

(** * The toggle *)

Section Toggle.

Lemma filter_conj (p q : row -> bool) (l : list row) :
  filter (fun r => p r && q r) l = filter q (filter p l).
Proof.
  induction l as [|x l IH]; simpl; [reflexivity|].
  destruct (p x); simpl; [destruct (q x); now rewrite IH | exact IH].
Qed.

(** After the UPDATE, a row differs from before exactly when it bears the
    title and its flag was the one that the SELECT fetched. *)
Lemma changed_ids_update (t : string) (c0 : Z) (l : list row) :
  c0 = 0 \/ c0 = 1 ->
  Forall (fun r => col_read r = 0 \/ col_read r = 1) l ->
  changed_ids l (map (fun r => if title_is t r then set_read (1 - c0) r else r) l)
  = map col_id (filter (fun r => title_is t r && (col_read r =? c0)) l).
Proof.
  intros Hc. induction 1 as [|x l Hx Hl IH]; [reflexivity|].
  cbn [map changed_ids filter]. rewrite IH.
  destruct (title_is t x); cbn [andb].
  - unfold set_read at 1. cbn [col_read].
    destruct (Z.eqb_spec (col_read x) c0), (Z.eqb_spec (col_read x) (1 - c0));
      try reflexivity; lia.
  - now rewrite Z.eqb_refl.
Qed.

Lemma first_match_lowest_id (p : row -> bool) (l : list row) (r0 : row)
  (rest : list row) :
  StronglySorted (fun a b => col_id a < col_id b) l ->
  filter p l = r0 :: rest ->
  Forall (fun r => col_id r0 < col_id r) rest.
Proof.
  intros Hs E. apply (sorted_filter p) in Hs. rewrite E in Hs.
  now inversion Hs.
Qed.

Lemma only_match (p : row -> bool) (l : list row) (r x : row) :
  filter p l = [r] -> In x l -> p x = true -> x = r.
Proof.
  intros E Hin Hp.
  assert (H : In x (filter p l)) by (apply filter_In; now split).
  rewrite E in H. destruct H as [H|[]]. now symmetry.
Qed.

Lemma filter_update (p : row -> bool) (f : row -> row) (l : list row) :
  (forall x, p x = true -> p (f x) = true) ->
  filter p (map (fun x => if p x then f x else x) l) = map f (filter p l).
Proof.
  intros Hf. induction l as [|x l IH]; [reflexivity|].
  cbn [map filter]. destruct (p x) eqn:E.
  - rewrite (Hf x E). cbn [map]. now rewrite IH.
  - rewrite E. exact IH.
Qed.

Lemma id_column_after_toggle (t : string) (d : db) :
  map col_id (books (snd (mark_as_read_unread t d))) = map col_id (books d).
Proof.
  unfold mark_as_read_unread.
  destruct (map col_read (select (title_is t) d)) as [|c0 cs]; [reflexivity|].
  cbv zeta. unfold update_read.
  destruct (negb (int64 (1 - c0))); [reflexivity|].
  destruct (existsb (title_is t) (books d) && negb (check_read (1 - c0)));
    [reflexivity|].
  cbn [snd books]. apply map_col_id_update.
Qed.

End Toggle.

(** What the toggle does with one or more rows of the title: it writes
    into every row of that title the complement of the flag of the first
    such row by id.  The rows whose flag changes are therefore the rows of
    that title whose flag equalled that of the first one: the first row
    always, the others only when they agreed with it. *)
Theorem toggle_writes_every_row_of_title
  (t : string) (d : db) (r0 : row) (rest : list row)
  (Hwf : wf d) (Hsel : select (title_is t) d = r0 :: rest) :
  let v := 1 - col_read r0 in
  mark_as_read_unread t d =
    (Ok (Some v),
     mkDb (map (fun r => if title_is t r then set_read v r else r) (books d))
          (sqlite_sequence d))
  /\ Forall (fun r => col_id r0 < col_id r) rest
  /\ changed_ids (books d) (books (snd (mark_as_read_unread t d)))
     = map col_id (filter (fun r => col_read r =? col_read r0) (r0 :: rest)).
Proof.
  destruct Hwf as (Hs & _ & Hok). unfold select in Hsel.
  assert (Hr0 : col_read r0 = 0 \/ col_read r0 = 1).
  { unfold read_ok in Hok. rewrite Forall_forall in Hok. apply Hok.
    apply (proj1 (filter_In (title_is t) r0 (books d))). rewrite Hsel. now left. }
  cbv zeta. rewrite toggle_outcome by exact Hok. rewrite Hsel.
  split; [reflexivity|]. split.
  - exact (first_match_lowest_id _ _ _ _ Hs Hsel).
  - cbn [snd books]. rewrite changed_ids_update by assumption.
    now rewrite filter_conj, Hsel.
Qed.

Lemma toggle_writes_every_row_of_title_witness :
  mark_as_read_unread "Dune" mixed_dunes = (Ok (Some 0), mkDb [dune 1 0; dune 2 0] 2)
  /\ Forall (fun r => 1 < col_id r) [dune 2 0]
  /\ changed_ids (books mixed_dunes)
       (books (snd (mark_as_read_unread "Dune" mixed_dunes))) = [1].
Proof.
  exact (toggle_writes_every_row_of_title "Dune" mixed_dunes (dune 1 1) [dune 2 0]
           wf_mixed_dunes eq_refl).
Defined.

(** With two unread copies of one title, one toggle changes the flag of
    both rows. *)
Lemma toggle_changes_two_rows :
  mark_as_read_unread "Dune" two_dunes = (Ok (Some 1), mkDb [dune 1 1; dune 2 1] 2)
  /\ changed_ids (books two_dunes)
       (books (snd (mark_as_read_unread "Dune" two_dunes))) = [1; 2].
Proof. split; reflexivity. Qed.

(** C1: the code at the failing inputs.  The method fetches one row and
    its docstring speaks of a book, but its UPDATE is by title: with two
    unread copies of "Dune" one toggle changes both rows, not one; with
    the first copy read and the second unread, the button of the second
    copy leaves that copy unread and changes the first. *)
Theorem toggle_duplicate_titles_defect :
  mark_as_read_unread "Dune" two_dunes = (Ok (Some 1), mkDb [dune 1 1; dune 2 1] 2)
  /\ changed_ids (books two_dunes)
       (books (snd (mark_as_read_unread "Dune" two_dunes))) = [1; 2]
  /\ nth_error (get_library mixed_dunes) 1 = Some (dune 2 0)
  /\ home_tab_click 1 mixed_dunes = (Ok Rerun, mkDb [dune 1 0; dune 2 0] 2)
  /\ changed_ids (books mixed_dunes) (books (snd (home_tab_click 1 mixed_dunes)))
     = [1].
Proof. repeat split; reflexivity. Qed.

(** C2: when the title matches exactly one row, one toggle replaces that
    row by the same row with the complemented flag and touches nothing
    else; a second toggle gives back the database of the start. *)
Theorem toggle_unique_title_flips_and_restores
  (t : string) (d : db) (r : row)
  (Hok : read_ok d) (Hsel : select (title_is t) d = [r]) :
  let flipped :=
    mkRow (col_id r) (col_title r) (col_author r) (col_year r) (col_genre r)
          (1 - col_read r) in
  let d1 :=
    mkDb (map (fun x => if title_is t x then flipped else x) (books d))
         (sqlite_sequence d) in
  mark_as_read_unread t d = (Ok (Some (1 - col_read r)), d1)
  /\ is_read flipped = negb (is_read r)
  /\ select (title_is t) d1 = [flipped]
  /\ mark_as_read_unread t d1 = (Ok (Some (col_read r)), d).
Proof.
  cbv zeta. unfold select in *.
  set (flipped := mkRow (col_id r) (col_title r) (col_author r) (col_year r)
                        (col_genre r) (1 - col_read r)).
  assert (Hin : In r (filter (title_is t) (books d))) by (rewrite Hsel; now left).
  apply filter_In in Hin. destruct Hin as (Hin & Ht).
  assert (Hr : col_read r = 0 \/ col_read r = 1).
  { unfold read_ok in Hok. rewrite Forall_forall in Hok. now apply Hok. }
  assert (Hmap : map (fun x => if title_is t x then set_read (1 - col_read r) x else x)
                     (books d)
                 = map (fun x => if title_is t x then flipped else x) (books d)).
  { apply map_ext_in. intros x Hx. destruct (title_is t x) eqn:E; [|reflexivity].
    now rewrite (only_match _ _ _ _ Hsel Hx E). }
  assert (H1 : mark_as_read_unread t d =
               (Ok (Some (1 - col_read r)),
                mkDb (map (fun x => if title_is t x then flipped else x) (books d))
                     (sqlite_sequence d))).
  { rewrite toggle_outcome by exact Hok. rewrite Hsel, Hmap. reflexivity. }
  assert (Hsel1 : filter (title_is t)
                    (map (fun x => if title_is t x then flipped else x) (books d))
                  = [flipped]).
  { rewrite (filter_update (title_is t) (fun _ => flipped)) by (intros; exact Ht).
    now rewrite Hsel. }
  split; [exact H1|]. split; [|split; [exact Hsel1|]].
  - unfold is_read, flipped. cbn [col_read].
    destruct Hr as [-> | ->]; reflexivity.
  - assert (Hok1 : read_ok (snd (mark_as_read_unread t d))) by now apply read_ok_toggle.
    rewrite H1 in Hok1. cbn [snd] in Hok1.
    rewrite toggle_outcome by exact Hok1. cbn [books sqlite_sequence].
    rewrite Hsel1. unfold flipped at 1 2. cbn [col_read].
    replace (1 - (1 - col_read r)) with (col_read r) by lia.
    f_equal. destruct d as [l s]. cbn [books sqlite_sequence] in *. f_equal.
    rewrite map_map. rewrite <- (map_id l) at 2. apply map_ext_in.
    intros x Hx. destruct (title_is t x) eqn:E.
    + replace (title_is t flipped) with true by (symmetry; exact Ht).
      rewrite (only_match _ _ _ _ Hsel Hx E). now destruct r.
    + now rewrite E.
Qed.

Lemma toggle_unique_title_flips_and_restores_witness :
  mark_as_read_unread "Dune" shelf = (Ok (Some 0), mkDb [hobbit; dune 3 0] 3)
  /\ is_read (dune 3 0) = negb (is_read (dune 3 1))
  /\ select (title_is "Dune") (mkDb [hobbit; dune 3 0] 3) = [dune 3 0]
  /\ mark_as_read_unread "Dune" (mkDb [hobbit; dune 3 0] 3) = (Ok (Some 1), shelf).
Proof.
  exact (toggle_unique_title_flips_and_restores "Dune" shelf (dune 3 1)
           (proj2 (proj2 wf_shelf)) eq_refl).
Defined.

(** * Removal *)

Section Removal.

Lemma filter_length_pos (p : row -> bool) (l : list row) :
  (0 <? Z.of_nat (List.length (filter p l))) = existsb p l.
Proof.
  induction l as [|x l IH]; [reflexivity|].
  cbn [filter existsb]. destruct (p x); [|exact IH].
  cbn [List.length orb]. apply Z.ltb_lt. lia.
Qed.

Lemma filter_partition_length (p : row -> bool) (l : list row) :
  (List.length (filter p l) + List.length (filter (fun r => negb (p r)) l)
   = List.length l)%nat.
Proof.
  induction l as [|x l IH]; [reflexivity|].
  cbn [filter]. destruct (p x); cbn [negb List.length]; lia.
Qed.

End Removal.

(** C3: [remove_book] never raises; it keeps, in their order, the rows
    whose title differs from the argument and deletes the others; it
    returns [True] exactly when a row bore the title. *)
Theorem remove_book_deletes_title (t : string) (d : db) :
  exists (removed : bool) (d' : db),
    remove_book t d = (Ok removed, d')
    /\ books d' = filter (fun r => negb (col_title r =? t)%string) (books d)
    /\ (forall r, In r (books d') <-> In r (books d) /\ col_title r <> t)
    /\ (List.length (books d)
        = List.length (filter (fun r => (col_title r =? t)%string) (books d))
          + List.length (books d'))%nat
    /\ (removed = true <-> exists r, In r (books d) /\ col_title r = t)
    /\ sqlite_sequence d' = sqlite_sequence d.
Proof.
  exists (existsb (title_is t) (books d)),
         (mkDb (filter (fun r => negb (title_is t r)) (books d)) (sqlite_sequence d)).
  split; [|split; [reflexivity|split; [|split; [|split; [|reflexivity]]]]].
  - unfold remove_book, delete. now rewrite filter_length_pos.
  - intros r. cbn [books]. rewrite filter_In, negb_true_iff.
    unfold title_is. now rewrite String.eqb_neq.
  - cbn [books]. symmetry. apply (filter_partition_length (title_is t)).
  - rewrite existsb_exists. unfold title_is.
    split; intros (r & Hr & Ht); exists r; split; try exact Hr;
      now apply String.eqb_eq.
Qed.

(** C4: removing a title that no row bears returns [False] and leaves the
    database as it was. *)
Theorem remove_book_absent_title (t : string) (d : db)
  (Habsent : forall r, In r (books d) -> col_title r <> t) :
  remove_book t d = (Ok false, d).
Proof.
  unfold remove_book, delete.
  assert (Hnone : filter (title_is t) (books d) = []).
  { apply filter_nothing. intros r Hr. apply String.eqb_neq. now apply Habsent. }
  assert (Hall : filter (fun r => negb (title_is t r)) (books d) = books d).
  { apply filter_keeps_all. intros r Hr. apply negb_true_iff, String.eqb_neq.
    now apply Habsent. }
  rewrite Hnone, Hall. now destruct d.
Qed.

Lemma remove_book_absent_title_witness :
  remove_book "Emma" shelf = (Ok false, shelf).
Proof.
  apply (remove_book_absent_title "Emma" shelf).
  intros r [<-|[<-|[]]]; discriminate.
Defined.

(** * Search *)




(** C9: the query ["%"] returns the whole table, whatever the titles and
    authors are; the sample row has no ["%"] in either and is returned. *)
Theorem search_percent_returns_every_row (d : db) :
  search_book "%" d = Ok (books d)
  /\ search_book "%" one_dune = Ok [dune 1 0]
  /\ occurs_upto py_lower_char "%" (col_title (dune 1 0)) = false
  /\ occurs_upto py_lower_char "%" (col_author (dune 1 0)) = false.
Proof.
  split; [|repeat split].
  rewrite (search_book_accepted "%" d eq_refl). f_equal.
  unfold matching_rows. apply filter_keeps_all. intros r _.
  apply orb_true_iff. left.
  change (cstr ("%" ++ py_lower "%" ++ "%")) with "%%%".
  apply like_percent_skip, like_percent_skip, like_only_percent.
Qed.

(** A query is lowered by Python, a title by the engine: a capital letter
    outside A-Z in the query matches neither itself nor its small letter
    in a title. *)
Remark search_latin_capital :
  search_book (String (ascii_of_N 201) "") one_ecole = Ok []
  /\ spec_search (String (ascii_of_N 201) "") one_ecole = [ecole]
  /\ search_book (String (ascii_of_N 233) "") one_ecole = Ok [].
Proof. repeat split; reflexivity. Qed.

(** * Statistics *)

Section Statistics.

Lemma read_one_is_read (l : list row) :
  Forall (fun r => col_read r = 0 \/ col_read r = 1) l ->
  filter (fun r => col_read r =? 1) l = filter is_read l.
Proof.
  intros H. apply filter_ext_in. intros r Hr.
  rewrite Forall_forall in H. unfold is_read.
  destruct (H r Hr) as [-> | ->]; reflexivity.
Qed.

Lemma filter_length_le (p : row -> bool) (l : list row) :
  (List.length (filter p l) <= List.length l)%nat.
Proof.
  induction l as [|x l IH]; [apply le_n|].
  cbn [filter]. destruct (p x); cbn [List.length]; lia.
Qed.

Lemma percentage_of_all : py_percentage 1 1 = 100%float.
Proof. reflexivity. Qed.

(** The table of the percentages of all libraries of up to 100 books,
    each compared in exact arithmetic with [100 * read / total]. *)
Lemma percentages_near_100 : percentages_near 100 = true.
Proof. vm_compute. reflexivity. Qed.

Lemma percentages_near_at (rows k n : nat) :
  percentages_near rows = true ->
  (1 <= n <= rows)%nat -> (k <= n)%nat ->
  near_percentage (Z.of_nat k) (Z.of_nat n)
    (py_percentage (Z.of_nat k) (Z.of_nat n)) = true.
Proof.
  intros H Hn Hk. unfold percentages_near in H.
  rewrite forallb_forall in H.
  assert (Hin : In n (seq 1 rows)) by (apply in_seq; lia).
  specialize (H n Hin). rewrite forallb_forall in H.
  apply H. apply in_seq. lia.
Qed.

End Statistics.

(** C6: [get_statistics] returns the number of rows, the number of rows
    whose flag is true, and the binary64 quotient of the read count by the
    total, times 100, or the int 0 when the table is empty, where nothing
    is divided.  In a library of up to 100 books that float is within
    2^-40 of the exact [100 * read / total].  With one row and that row
    read the result is (1, 1, 100.0). *)
Theorem get_statistics_triple (d : db) (Hok : read_ok d) :
  let total := Z.of_nat (List.length (books d)) in
  let nread := Z.of_nat (List.length (filter is_read (books d))) in
  get_statistics d =
    (total, nread,
     if total =? 0 then NumInt 0
     else NumFloat (SF2Prim (binary_normalize prec emax nread 0 false)
                    / SF2Prim (binary_normalize prec emax total 0 false)
                    * 100)%float)
  /\ 0 <= nread <= total
  /\ (0 < total <= 100 ->
      exists p, snd (get_statistics d) = NumFloat p
                /\ near_percentage nread total p = true)
  /\ (books d = [] -> get_statistics d = (0, 0, NumInt 0))
  /\ (forall r, books d = [r] -> is_read r = true ->
      get_statistics d = (1, 1, NumFloat 100)).
Proof.
  cbv zeta.
  assert (H : get_statistics d =
    (Z.of_nat (List.length (books d)),
     Z.of_nat (List.length (filter is_read (books d))),
     if Z.of_nat (List.length (books d)) =? 0 then NumInt 0
     else NumFloat (py_percentage (Z.of_nat (List.length (filter is_read (books d))))
                                  (Z.of_nat (List.length (books d)))))).
  { unfold get_statistics, count.
    now rewrite filter_everything, (read_one_is_read _ Hok). }
  pose proof (filter_length_le is_read (books d)) as Hle.
  split; [|split; [|split; [|split]]].
  - rewrite H. unfold py_percentage, float_of_Z.
    change (SF2Prim (binary_normalize prec emax 100 0 false)) with 100%float.
    reflexivity.
  - lia.
  - intros Ht. rewrite H. cbn [snd].
    destruct (Z.eqb_spec (Z.of_nat (List.length (books d))) 0) as [E|_]; [lia|].
    eexists. split; [reflexivity|].
    apply (percentages_near_at 100 _ _ percentages_near_100); lia.
  - intros E. rewrite H, E. reflexivity.
  - intros r E Hr. rewrite H, E. cbn [filter]. rewrite Hr.
    cbn [List.length Z.of_nat Pos.of_succ_nat Z.eqb].
    now rewrite percentage_of_all.
Qed.

Lemma get_statistics_triple_witness :
  get_statistics shelf = (2, 1, NumFloat 50)
  /\ 0 <= 1 <= 2
  /\ (0 < 2 <= 100 ->
      exists p, snd (get_statistics shelf) = NumFloat p
                /\ near_percentage 1 2 p = true)
  /\ (books shelf = [] -> get_statistics shelf = (0, 0, NumInt 0))
  /\ (forall r, books shelf = [r] -> is_read r = true ->
      get_statistics shelf = (1, 1, NumFloat 100)).
Proof.
  exact (get_statistics_triple shelf (proj2 (proj2 wf_shelf))).
Defined.

(** The session of the specification: add Dune unread to a new library,
    toggle it, ask for the statistics. *)
Example dune_session :
  let d1 := snd (add_book "Dune" "Herbert" 1965 "Sci-Fi" (PyBool false) empty_db) in
  let d2 := snd (mark_as_read_unread "Dune" d1) in
  get_library d1 = [dune 1 0]
  /\ fst (mark_as_read_unread "Dune" d1) = Ok (Some 1)
  /\ get_statistics d2 = (1, 1, NumFloat 100)
  /\ get_statistics empty_db = (0, 0, NumInt 0).
Proof. repeat split; reflexivity. Qed.

(** * Listing and adding *)

(** C7: [get_library] returns the rows of the table, each id once, in
    ascending id order; a book added next is listed last. *)
Theorem get_library_rows_in_id_order (d : db) (Hwf : wf d) :
  get_library d = books d
  /\ NoDup (map col_id (get_library d))
  /\ StronglySorted (fun a b => col_id a < col_id b) (get_library d)
  /\ (forall t a y g b,
        int64 y = true ->
        get_library (snd (add_book t a y g (PyBool b) d))
        = get_library d ++ [mkRow (next_rowid d) t a y g (if b then 1 else 0)]).
Proof.
  destruct Hwf as (Hs & _ & _).
  assert (E : forall x, get_library x = books x)
    by (intros x; apply filter_everything).
  rewrite !E. split; [reflexivity|]. split; [now apply sorted_ids_nodup|].
  split; [exact Hs|].
  intros t a y g b Hy. rewrite !E. unfold add_book.
  rewrite insert_ok by (trivial; now destruct b). now destruct b.
Qed.

Lemma get_library_rows_in_id_order_witness :
  get_library shelf = [hobbit; dune 3 1]
  /\ NoDup (map col_id (get_library shelf))
  /\ StronglySorted (fun a b => col_id a < col_id b) (get_library shelf)
  /\ (forall t a y g b,
        int64 y = true ->
        get_library (snd (add_book t a y g (PyBool b) shelf))
        = get_library shelf ++ [mkRow 4 t a y g (if b then 1 else 0)]).
Proof.
  exact (get_library_rows_in_id_order shelf wf_shelf).
Defined.

(** C8: [add_book] with a year that fits an INTEGER and a bool flag returns
    normally and appends one row with the submitted values; its id is above
    every id in the table and above every id handed out before; the old
    rows stay as they are.  The other two writers leave ids alone: the
    toggle keeps the id column, the removal keeps the rows it does not
    delete. *)
Theorem add_book_appends_fresh_row
  (t a : string) (y : Z) (g : string) (b : bool) (d : db)
  (Hyear : int64 y = true) :
  let i := next_rowid d in
  add_book t a y g (PyBool b) d =
    (Ok tt, mkDb (books d ++ [mkRow i t a y g (if b then 1 else 0)]) i)
  /\ Forall (fun r => col_id r < i) (books d)
  /\ sqlite_sequence d < i
  /\ (forall t', map col_id (books (snd (mark_as_read_unread t' d)))
                 = map col_id (books d))
  /\ (forall t' r, In r (books (snd (remove_book t' d))) -> In r (books d)).
Proof.
  cbv zeta. split; [|split; [|split; [|split]]].
  - unfold add_book. rewrite insert_ok by (trivial; now destruct b).
    now destruct b.
  - apply Forall_forall. intros r Hr. now apply next_rowid_above_rows.
  - apply next_rowid_above_sequence.
  - intros t'. apply id_column_after_toggle.
  - intros t' r Hr. unfold remove_book, delete in Hr. cbn [snd books] in Hr.
    apply filter_In in Hr. tauto.
Qed.

Lemma add_book_appends_fresh_row_witness :
  add_book "Emma" "Austen" 1815 "Novel" (PyBool true) shelf =
    (Ok tt, mkDb [hobbit; dune 3 1; mkRow 4 "Emma" "Austen" 1815 "Novel" 1] 4)
  /\ Forall (fun r => col_id r < 4) (books shelf)
  /\ sqlite_sequence shelf < 4
  /\ (forall t', map col_id (books (snd (mark_as_read_unread t' shelf)))
                 = map col_id (books shelf))
  /\ (forall t' r, In r (books (snd (remove_book t' shelf))) -> In r (books shelf)).
Proof.
  exact (add_book_appends_fresh_row "Emma" "Austen" 1815 "Novel" true shelf eq_refl).
Defined.

(** C10: every writer keeps every flag in {0, 1}: a bool is stored as 0 or
    1, an int outside {0, 1} is refused by the CHECK constraint
    or by the binding, the toggle writes [1 - r] for a flag [r] of the
    table, the removal writes nothing. *)
Theorem read_flag_stays_0_or_1 (c : call) (d : db) (Hok : read_ok d) :
  read_ok (run c d)
  /\ (forall b, py_int (PyBool b) = 0 \/ py_int (PyBool b) = 1)
  /\ (forall r, In r (books d) -> 1 - col_read r = 0 \/ 1 - col_read r = 1)
  /\ (forall t a y g z, z <> 0 -> z <> 1 ->
        exists e, add_book t a y g (PyInt z) d = (Err e, d)).
Proof.
  split; [|split; [|split]].
  - destruct c; cbn [run];
      [now apply read_ok_add | now apply read_ok_remove | now apply read_ok_toggle].
  - intros [|]; [now right | now left].
  - intros r Hr. unfold read_ok in Hok. rewrite Forall_forall in Hok.
    specialize (Hok r Hr). lia.
  - intros t a y g z H0 H1. unfold add_book. cbn [py_int].
    destruct (insert_outcome t a y g z d) as [(E & _)|H]; [|exact H].
    apply check_read_iff in E. lia.
Qed.

Lemma read_flag_stays_0_or_1_witness :
  read_ok (run (CallToggle "Dune") shelf)
  /\ (forall b, py_int (PyBool b) = 0 \/ py_int (PyBool b) = 1)
  /\ (forall r, In r (books shelf) -> 1 - col_read r = 0 \/ 1 - col_read r = 1)
  /\ (forall t a y g z, z <> 0 -> z <> 1 ->
        exists e, add_book t a y g (PyInt z) shelf = (Err e, shelf)).
Proof.
  exact (read_flag_stays_0_or_1 (CallToggle "Dune") shelf (proj2 (proj2 wf_shelf))).
Defined.

(** * How the calls compose *)

Section Composition.

Lemma toggle_no_match (t : string) (d : db) :
  filter (title_is t) (books d) = [] -> mark_as_read_unread t d = (Ok None, d).
Proof. intros E. unfold mark_as_read_unread, select. now rewrite E. Qed.

Lemma title_absent_no_match (t : string) (l : list row) :
  (forall r, In r l -> col_title r <> t) -> filter (title_is t) l = [].
Proof.
  intros H. apply filter_nothing. intros r Hr. apply String.eqb_neq. now apply H.
Qed.

Lemma delete_no_match (p : row -> bool) (d : db) :
  filter p (books d) = [] -> delete p d = (0, d).
Proof.
  intros E. unfold delete. rewrite E. cbn [List.length Z.of_nat]. f_equal.
  destruct d as [l s]. cbn [books sqlite_sequence] in *. f_equal.
  apply filter_keeps_all. intros r Hr. apply negb_true_iff.
  destruct (p r) eqn:Hp; [|reflexivity].
  assert (Hin : In r (filter p l)) by (apply filter_In; now split).
  rewrite E in Hin. destruct Hin.
Qed.

Lemma filter_of_rest (p : row -> bool) (l : list row) :
  filter p (filter (fun r => negb (p r)) l) = [].
Proof.
  apply filter_nothing. intros r Hr. apply filter_In in Hr.
  now apply negb_true_iff.
Qed.

Lemma map_fixes (f : row -> row) (l : list row) :
  map f l = l <-> forall x, In x l -> f x = x.
Proof.
  induction l as [|x l IH]; cbn [map].
  - split; [intros _ y [] | reflexivity].
  - split.
    + intros E y [<-|Hy]; injection E as E1 E2; [exact E1|]. now apply IH.
    + intros H. f_equal; [apply H; now left|]. apply IH. intros y Hy. apply H. now right.
Qed.

Lemma set_read_same (r : row) (v : Z) : set_read v r = r <-> col_read r = v.
Proof.
  destruct r as [i t a y g rd]. unfold set_read. cbn. split.
  - intros E. now injection E.
  - now intros ->.
Qed.

Lemma sequence_after_toggle (t : string) (d : db) :
  sqlite_sequence (snd (mark_as_read_unread t d)) = sqlite_sequence d.
Proof.
  unfold mark_as_read_unread.
  destruct (map col_read (select (title_is t) d)) as [|c0 cs]; [reflexivity|].
  cbv zeta. unfold update_read.
  destruct (negb (int64 (1 - c0))); [reflexivity|].
  now destruct (existsb (title_is t) (books d) && negb (check_read (1 - c0))).
Qed.

Lemma columns_after_toggle (t : string) (d : db) :
  map forget_read (books (snd (mark_as_read_unread t d)))
  = map forget_read (books d).
Proof.
  unfold mark_as_read_unread.
  destruct (map col_read (select (title_is t) d)) as [|c0 cs]; [reflexivity|].
  cbv zeta. unfold update_read.
  destruct (negb (int64 (1 - c0))); [reflexivity|].
  destruct (existsb (title_is t) (books d) && negb (check_read (1 - c0)));
    [reflexivity|].
  cbn [snd books]. rewrite map_map. apply map_ext. intros r.
  now destruct (title_is t r).
Qed.

End Composition.

(** X1: a toggle with a title that no row bears returns [None] and leaves
    the database as it was. *)
Theorem toggle_absent_title (t : string) (d : db)
  (Habsent : forall r, In r (books d) -> col_title r <> t) :
  mark_as_read_unread t d = (Ok None, d).
Proof. apply toggle_no_match. now apply title_absent_no_match. Qed.

Lemma toggle_absent_title_witness :
  mark_as_read_unread "Emma" shelf = (Ok None, shelf).
Proof.
  apply (toggle_absent_title "Emma" shelf).
  intros r [<-|[<-|[]]]; discriminate.
Defined.

(** X2: two toggles in a row leave every row of the title with the flag
    that the first of them had at the start; they give back the database
    of the start exactly when the other rows of the title agreed with the
    first one. *)
Theorem toggle_twice_restores_iff_copies_agree
  (t : string) (d : db) (r0 : row) (rest : list row)
  (Hok : read_ok d) (Hsel : select (title_is t) d = r0 :: rest) :
  let d1 := snd (mark_as_read_unread t d) in
  let d2 := snd (mark_as_read_unread t d1) in
  fst (mark_as_read_unread t d1) = Ok (Some (col_read r0))
  /\ books d2
     = map (fun r => if title_is t r then set_read (col_read r0) r else r) (books d)
  /\ (d2 = d <-> Forall (fun r => col_read r = col_read r0) rest).
Proof.
  cbv zeta. unfold select in Hsel.
  set (v := 1 - col_read r0).
  set (upd := fun r => if title_is t r then set_read v r else r).
  set (back := fun r => if title_is t r then set_read (col_read r0) r else r).
  assert (H1 : mark_as_read_unread t d
               = (Ok (Some v), mkDb (map upd (books d)) (sqlite_sequence d))).
  { rewrite toggle_outcome by exact Hok. now rewrite Hsel. }
  assert (Hok1 : read_ok (mkDb (map upd (books d)) (sqlite_sequence d))).
  { pose proof (read_ok_toggle t d Hok) as H. now rewrite H1 in H. }
  assert (Hsel1 : filter (title_is t) (map upd (books d))
                  = set_read v r0 :: map (set_read v) rest).
  { unfold upd. rewrite (filter_update (title_is t) (set_read v))
      by (intros x Hx; exact Hx).
    now rewrite Hsel. }
  assert (Hmap : map back (map upd (books d)) = map back (books d)).
  { rewrite map_map. apply map_ext. intros r. unfold back, upd.
    destruct (title_is t r) eqn:E; [|now rewrite E].
    replace (title_is t (set_read v r)) with true by (symmetry; exact E).
    reflexivity. }
  assert (H2 : mark_as_read_unread t (mkDb (map upd (books d)) (sqlite_sequence d))
               = (Ok (Some (col_read r0)),
                  mkDb (map back (books d)) (sqlite_sequence d))).
  { rewrite toggle_outcome by exact Hok1. cbn [books sqlite_sequence].
    rewrite Hsel1. cbv beta iota.
    replace (1 - col_read (set_read v r0)) with (col_read r0)
      by (unfold set_read, v; cbn [col_read]; lia).
    fold back. now rewrite Hmap. }
  rewrite H1. cbn [snd]. rewrite H2. cbn [fst snd books].
  split; [reflexivity|]. split; [reflexivity|]. unfold back.
  destruct d as [l s]. cbn [books sqlite_sequence] in *.
  split.
  - intros E. injection E as E.
    pose proof (proj1 (map_fixes _ l) E) as F. clear E. rename F into E.
    apply Forall_forall. intros x Hx.
    assert (Hin : In x (filter (title_is t) l)) by (rewrite Hsel; now right).
    apply filter_In in Hin. destruct Hin as (Hin & Ht).
    specialize (E x Hin). cbv beta in E. rewrite Ht in E. now apply set_read_same.
  - intros H. f_equal. apply map_fixes. intros x Hx.
    destruct (title_is t x) eqn:Ht; [|reflexivity].
    apply set_read_same.
    assert (Hin : In x (filter (title_is t) l)) by (apply filter_In; now split).
    rewrite Hsel in Hin. destruct Hin as [<-|Hin]; [reflexivity|].
    rewrite Forall_forall in H. now apply H.
Qed.

Lemma toggle_twice_restores_iff_copies_agree_witness :
  fst (mark_as_read_unread "Dune" (snd (mark_as_read_unread "Dune" mixed_dunes)))
  = Ok (Some 1)
  /\ books (snd (mark_as_read_unread "Dune"
                   (snd (mark_as_read_unread "Dune" mixed_dunes))))
     = [dune 1 1; dune 2 1]
  /\ (snd (mark_as_read_unread "Dune" (snd (mark_as_read_unread "Dune" mixed_dunes)))
      = mixed_dunes
      <-> Forall (fun r => col_read r = 1) [dune 2 0]).
Proof.
  exact (toggle_twice_restores_iff_copies_agree "Dune" mixed_dunes (dune 1 1)
           [dune 2 0] (proj2 (proj2 wf_mixed_dunes)) eq_refl).
Defined.

(** X3: once a title is removed it is gone: removing it again returns
    [False], toggling it returns [None], and neither changes the
    database. *)
Theorem removed_title_is_gone (t : string) (d : db) :
  let d' := snd (remove_book t d) in
  select (title_is t) d' = []
  /\ remove_book t d' = (Ok false, d')
  /\ mark_as_read_unread t d' = (Ok None, d').
Proof.
  cbv zeta.
  assert (E : filter (title_is t) (books (snd (remove_book t d))) = [])
    by apply filter_of_rest.
  split; [exact E|]. split.
  - unfold remove_book at 1. now rewrite (delete_no_match _ _ E).
  - now apply toggle_no_match.
Qed.

(** X4: adding a book and then removing its title returns [True] and
    leaves the rows that bore another title before; the counter keeps the
    id that was handed out.  When the title was new, the rows are those of
    the start. *)
Theorem add_then_remove
  (t a : string) (y : Z) (g : string) (b : bool) (d : db)
  (Hyear : int64 y = true) :
  remove_book t (snd (add_book t a y g (PyBool b) d))
  = (Ok true,
     mkDb (filter (fun r => negb (title_is t r)) (books d)) (next_rowid d))
  /\ ((forall r, In r (books d) -> col_title r <> t) ->
      books (snd (remove_book t (snd (add_book t a y g (PyBool b) d)))) = books d).
Proof.
  assert (E : remove_book t (snd (add_book t a y g (PyBool b) d))
              = (Ok true,
                 mkDb (filter (fun r => negb (title_is t r)) (books d))
                      (next_rowid d))).
  { unfold add_book. rewrite insert_ok by (trivial; now destruct b).
    unfold remove_book, delete. cbn [snd books sqlite_sequence].
    remember (mkRow (next_rowid d) t a y g (py_int (PyBool b))) as new eqn:En.
    assert (Hn : title_is t new = true)
      by (rewrite En; apply String.eqb_refl).
    rewrite filter_length_pos, existsb_app, filter_app.
    cbn [existsb filter]. rewrite Hn. cbn [negb orb].
    now rewrite orb_true_r, app_nil_r. }
  split; [exact E|]. intros H. rewrite E. cbn [snd books].
  apply filter_keeps_all. intros r Hr. apply negb_true_iff, String.eqb_neq.
  now apply H.
Qed.

Lemma add_then_remove_witness :
  remove_book "Emma" (snd (add_book "Emma" "Austen" 1815 "Novel" (PyBool false) shelf))
  = (Ok true, mkDb [hobbit; dune 3 1] 4)
  /\ ((forall r, In r (books shelf) -> col_title r <> "Emma") ->
      books (snd (remove_book "Emma"
                    (snd (add_book "Emma" "Austen" 1815 "Novel" (PyBool false) shelf))))
      = books shelf).
Proof.
  exact (add_then_remove "Emma" "Austen" 1815 "Novel" false shelf eq_refl).
Defined.

(** X5: a toggle, whatever it returns or raises, adds no row, removes none
    and changes no id, title, author, year or genre; the counter stays. *)
Theorem toggle_touches_only_the_flag (t : string) (d : db) :
  map forget_read (books (snd (mark_as_read_unread t d)))
  = map forget_read (books d)
  /\ sqlite_sequence (snd (mark_as_read_unread t d)) = sqlite_sequence d.
Proof.
  split; [apply columns_after_toggle | apply sequence_after_toggle].
Qed.

(** * Ids over the life of a library *)

Section Counter.

Lemma max_rowid_issued (l : list row) (s : Z) :
  0 <= s -> Forall (fun r => 0 < col_id r <= s) l -> max_rowid l <= s.
Proof.
  intros Hs. induction 1 as [|x l Hx Hl IH]; cbn [max_rowid fold_right]; [exact Hs|].
  fold (max_rowid l). lia.
Qed.

Lemma next_rowid_follows_counter (d : db) :
  0 <= sqlite_sequence d -> ids_issued d -> next_rowid d = sqlite_sequence d + 1.
Proof.
  intros Hs Hi. pose proof (max_rowid_issued _ _ Hs Hi). unfold next_rowid. lia.
Qed.

Lemma counter_after_run (c : call) (d : db) :
  0 <= sqlite_sequence d -> 0 <= sqlite_sequence (run c d).
Proof.
  intros Hs. destruct c as [t a y g rs|t|t]; cbn [run].
  - unfold add_book.
    destruct (insert_outcome t a y g (py_int rs) d) as [(_ & ->)|(e & ->)];
      [|exact Hs].
    cbn [snd sqlite_sequence]. pose proof (next_rowid_above_sequence d). lia.
  - exact Hs.
  - now rewrite sequence_after_toggle.
Qed.

Lemma reachable_counter (d : db) : reachable d -> 0 <= sqlite_sequence d.
Proof.
  induction 1 as [|c d Hd IH]; [cbn; lia | now apply counter_after_run].
Qed.

Lemma run_all_reachable (cs : list call) (d : db) :
  reachable d -> reachable (run_all cs d).
Proof.
  revert d. induction cs as [|c cs IH]; intros d Hd; [exact Hd|].
  apply IH. now constructor.
Qed.

End Counter.

(** X6: an id is never handed out twice.  In a library built by any calls
    of the manager, whatever title is removed next, the book added after
    that gets the id one above the counter, which no row of the library
    bore, removed or not. *)
Theorem ids_are_never_reused
  (cs : list call) (t' t a : string) (y : Z) (g : string) (b : bool)
  (Hyear : int64 y = true) :
  let d := run_all cs empty_db in
  let d1 := snd (remove_book t' d) in
  add_book t a y g (PyBool b) d1
  = (Ok tt,
     mkDb (books d1 ++ [mkRow (sqlite_sequence d + 1) t a y g (if b then 1 else 0)])
          (sqlite_sequence d + 1))
  /\ Forall (fun r => col_id r < sqlite_sequence d + 1) (books d).
Proof.
  cbv zeta.
  assert (Hr : reachable (run_all cs empty_db))
    by (apply run_all_reachable; constructor).
  pose proof (reachable_wf _ Hr) as Hwf.
  pose proof (reachable_counter _ Hr) as Hs.
  set (d := run_all cs empty_db) in *.
  destruct (wf_remove t' d Hwf) as (_ & Hi1 & _).
  assert (Hn : next_rowid (snd (remove_book t' d)) = sqlite_sequence d + 1).
  { now rewrite next_rowid_follows_counter. }
  split.
  - unfold add_book. rewrite insert_ok by (trivial; now destruct b).
    rewrite Hn. now destruct b.
  - destruct Hwf as (_ & Hi & _). unfold ids_issued in Hi.
    rewrite Forall_forall in *. intros r Hr'. specialize (Hi r Hr'). lia.
Qed.

Lemma ids_are_never_reused_witness :
  add_book "Emma" "Austen" 1815 "Novel" (PyBool false)
    (snd (remove_book "Dune"
            (run_all [CallAdd "Dune" "Herbert" 1965 "Sci-Fi" (PyBool false)] empty_db)))
  = (Ok tt, mkDb [mkRow 2 "Emma" "Austen" 1815 "Novel" 0] 2)
  /\ Forall (fun r => col_id r < 2)
       (books (run_all [CallAdd "Dune" "Herbert" 1965 "Sci-Fi" (PyBool false)]
                 empty_db)).
Proof.
  exact (ids_are_never_reused
           [CallAdd "Dune" "Herbert" 1965 "Sci-Fi" (PyBool false)]
           "Dune" "Emma" "Austen" 1815 "Novel" false eq_refl).
Defined.

(** X7: whatever calls are made on a new library, with whatever
    arguments, the table keeps its schema: ids are positive, strictly
    ascending, hence distinct, and none is above the counter; every flag
    is 0 or 1. *)
Theorem manager_keeps_schema (cs : list call) :
  let d := run_all cs empty_db in
  StronglySorted (fun a b => col_id a < col_id b) (books d)
  /\ NoDup (map col_id (books d))
  /\ Forall (fun r => 0 < col_id r <= sqlite_sequence d) (books d)
  /\ Forall (fun r => col_read r = 0 \/ col_read r = 1) (books d).
Proof.
  cbv zeta.
  assert (Hr : reachable (run_all cs empty_db))
    by (apply run_all_reachable; constructor).
  destruct (reachable_wf _ Hr) as (Hs & Hi & Hok).
  split; [exact Hs|]. split; [now apply sorted_ids_nodup|]. now split.
Qed.

(** * Search, once more *)

Section Percent.

Lemma compare_all_percent (p s : string) :
  all_percent p = true -> patternCompare (String "%" p) s = true.
Proof.
  induction p as [|c p IH]; intros H; [apply like_only_percent|].
  cbn [all_percent] in H. apply andb_prop in H. destruct H as (Hc & Hp).
  apply Ascii.eqb_eq in Hc. subst c. apply like_percent_skip. now apply IH.
Qed.

Lemma cstr_all_percent (p : string) : all_percent p = true -> cstr p = p.
Proof.
  induction p as [|c p IH]; intros H; [reflexivity|].
  cbn [all_percent] in H. apply andb_prop in H. destruct H as (Hc & Hp).
  apply Ascii.eqb_eq in Hc. subst c. cbn [cstr].
  change ("%" =? Ascii.zero)%char with false. cbv iota. now rewrite IH.
Qed.

Lemma all_percent_pattern (q : string) :
  all_percent q = true -> all_percent (py_lower q ++ "%") = true.
Proof.
  induction q as [|c q IH]; intros H; [reflexivity|].
  cbn [all_percent] in H. apply andb_prop in H. destruct H as (Hc & Hp).
  cbn [py_lower append all_percent].
  now rewrite py_lower_char_percent, Hc, IH.
Qed.




End Percent.

(** X8: a query made of ["%"] only, the empty query among them, returns
    the whole table, as long as it has at most 49998 bytes. *)
Theorem search_empty_or_percent_query (q : string) (d : db)
  (Hlen : (utf8_length q <=? longest_query) = true)
  (Hq : all_percent q = true) :
  search_book q d = Ok (books d).
Proof.
  rewrite (search_book_accepted q d Hlen). f_equal.
  unfold matching_rows. apply filter_keeps_all. intros r _.
  apply orb_true_iff. left.
  change ("%" ++ py_lower q ++ "%")%string with (String "%" (py_lower q ++ "%")).
  pose proof (all_percent_pattern q Hq) as Hp.
  rewrite (cstr_all_percent (String "%" (py_lower q ++ "%")))
    by (cbn [all_percent]; now rewrite Hp).
  now apply compare_all_percent.
Qed.

Lemma search_empty_or_percent_query_witness :
  search_book "" shelf = Ok (books shelf).
Proof. exact (search_empty_or_percent_query "" shelf eq_refl eq_refl). Defined.



(** * Statistics after a write *)

Section CountsAfterWrites.

Lemma count_after_delete (p q : row -> bool) (l : list row) :
  Z.of_nat (List.length (filter q (filter (fun r => negb (p r)) l)))
  = Z.of_nat (List.length (filter q l))
    - Z.of_nat (List.length (filter q (filter p l))).
Proof.
  induction l as [|x l IH]; [reflexivity|].
  cbn [filter]. destruct (p x); cbn [negb filter];
    destruct (q x); cbn [List.length]; lia.
Qed.

End CountsAfterWrites.

(** X10: the counts of [get_statistics] follow the writes.  An added book
    raises the total by one and the number read by one when its flag is
    set; a removal lowers both by the number of rows, and of read rows, of
    the title; a toggle leaves the total alone. *)
Theorem statistics_follow_writes
  (t a : string) (y : Z) (g : string) (b : bool) (d : db)
  (Hyear : int64 y = true) :
  let total x := fst (fst (get_statistics x)) in
  let nread x := snd (fst (get_statistics x)) in
  let titled := mkDb (select (title_is t) d) (sqlite_sequence d) in
  total (snd (add_book t a y g (PyBool b) d)) = total d + 1
  /\ nread (snd (add_book t a y g (PyBool b) d)) = nread d + (if b then 1 else 0)
  /\ total (snd (remove_book t d)) = total d - total titled
  /\ nread (snd (remove_book t d)) = nread d - nread titled
  /\ total (snd (mark_as_read_unread t d)) = total d.
Proof.
  cbv zeta. unfold get_statistics, count, select. cbn [fst snd books].
  unfold add_book. rewrite insert_ok by (trivial; now destruct b).
  cbn [snd books]. rewrite !filter_app, !length_app.
  unfold remove_book, delete. cbn [snd books].
  rewrite !count_after_delete.
  split; [cbn; lia|]. split; [destruct b; cbn; lia|].
  split; [reflexivity|]. split; [reflexivity|].
  rewrite !filter_everything.
  pose proof (columns_after_toggle t d) as E.
  apply (f_equal (@List.length row)) in E. rewrite !length_map in E.
  now rewrite E.
Qed.

Lemma statistics_follow_writes_witness :
  let total x := fst (fst (get_statistics x)) in
  let nread x := snd (fst (get_statistics x)) in
  let titled := mkDb (select (title_is "Dune") shelf) (sqlite_sequence shelf) in
  total (snd (add_book "Dune" "Herbert" 1965 "Sci-Fi" (PyBool true) shelf))
  = total shelf + 1
  /\ nread (snd (add_book "Dune" "Herbert" 1965 "Sci-Fi" (PyBool true) shelf))
     = nread shelf + 1
  /\ total (snd (remove_book "Dune" shelf)) = total shelf - total titled
  /\ nread (snd (remove_book "Dune" shelf)) = nread shelf - nread titled
  /\ total (snd (mark_as_read_unread "Dune" shelf)) = total shelf.
Proof.
  exact (statistics_follow_writes "Dune" "Herbert" 1965 "Sci-Fi" true shelf eq_refl).
Defined.

(** * The tabs of the script *)

Section Tabs.

Lemma form_valid_year (t a : string) (y : Z) (g : string) :
  form_valid t a y g = true -> int64 y = true.
Proof.
  unfold form_valid, int64. rewrite !andb_true_iff, !Z.leb_le, Z.ltb_lt.
  assert (E : 2 ^ 63 = 9223372036854775808) by reflexivity. rewrite E. lia.
Qed.

Lemma add_book_tab_outcome (t a : string) (y : Z) (g : string) (b : bool) (d : db) :
  add_book_tab t a y g b d =
    if form_valid t a y g
    then (Ok (AddedSuccessfully t),
          mkDb (books d ++ [mkRow (next_rowid d) t a y g (if b then 1 else 0)])
               (next_rowid d))
    else (Ok FillAllFields, d).
Proof.
  unfold add_book_tab. destruct (form_valid t a y g) eqn:Hv; [|reflexivity].
  unfold add_book.
  rewrite insert_ok by (first [now apply (form_valid_year t a y g) | now destruct b]).
  now destruct b.
Qed.

Lemma remove_book_tab_outcome (t : string) (d : db) :
  remove_book_tab t d =
    if py_truthy t && existsb (title_is t) (books d)
    then (Ok (RemovedSuccessfully t),
          mkDb (filter (fun r => negb (title_is t r)) (books d)) (sqlite_sequence d))
    else (Ok (if py_truthy t then BookNotFound else EnterValidTitle), d).
Proof.
  unfold remove_book_tab. destruct (py_truthy t); [|reflexivity]. cbn [andb].
  unfold remove_book, delete. rewrite filter_length_pos.
  destruct (existsb (title_is t) (books d)) eqn:E; [reflexivity|].
  f_equal. destruct d as [l s]. cbn [books sqlite_sequence] in *. f_equal.
  apply filter_keeps_all. intros r Hr. apply negb_true_iff.
  destruct (title_is t r) eqn:Ht; [|reflexivity].
  assert (H : existsb (title_is t) l = true) by (apply existsb_exists; now exists r).
  congruence.
Qed.




(** The file after a click in the Home tab is the one before, or the one
    a toggle leaves. *)
Lemma home_tab_click_file (k : nat) (d : db) :
  snd (home_tab_click k d) = d
  \/ exists t, snd (home_tab_click k d) = snd (mark_as_read_unread t d).
Proof.
  unfold home_tab_click.
  destruct (nth_error (get_library d) k) as [book|]; [|now left].
  right. exists (col_title book).
  now destruct (mark_as_read_unread (col_title book) d) as [[v|e] d'].
Qed.




(** A row with the columns of the form, whatever its flag, stays in the
    table through a run that does not remove its title. *)
Lemma row_kept_by_run (x : row) (d : db) (ev : event) :
  removes (col_title x) ev = false ->
  In (forget_read x) (map forget_read (books d)) ->
  In (forget_read x) (map forget_read (books (snd (script (Some d) ev)))).
Proof.
  intros Hev Hin. unfold script. cbn [create_table].
  destruct ev as [t a y g b|t|k|q].
  - rewrite add_book_tab_outcome. destruct (form_valid t a y g); [|exact Hin].
    cbn [snd books]. rewrite map_app. apply in_or_app. now left.
  - rewrite remove_book_tab_outcome.
    destruct (py_truthy t && existsb (title_is t) (books d)); [|exact Hin].
    cbn [snd books]. apply in_map_iff in Hin. destruct Hin as (r & Er & Hr).
    apply in_map_iff. exists r. split; [exact Er|].
    apply filter_In. split; [exact Hr|]. apply negb_true_iff.
    assert (Et : col_title r = col_title x)
      by exact (f_equal col_title Er).
    unfold title_is. rewrite Et. cbn [removes] in Hev.
    now rewrite String.eqb_sym.
  - destruct (home_tab_click_file k d) as [E | (t & E)]; rewrite E;
      [exact Hin|]. now rewrite columns_after_toggle.
  - exact Hin.
Qed.

Lemma row_kept_by_session (x : row) (evs : list event) (d : db) :
  forallb (fun ev => negb (removes (col_title x) ev)) evs = true ->
  In (forget_read x) (map forget_read (books d)) ->
  In (forget_read x)
     (map forget_read (books (create_table (snd (session evs (Some d)))))).
Proof.
  revert d. induction evs as [|ev evs IH]; intros d Hevs Hin; [exact Hin|].
  cbn [forallb] in Hevs. apply andb_prop in Hevs. destruct Hevs as (Hev & Hevs).
  apply negb_true_iff in Hev.
  pose proof (row_kept_by_run x d ev Hev Hin) as Hstep.
  cbn [session]. destruct (script (Some d) ev) as [out d'].
  cbn [snd] in Hstep. specialize (IH d' Hevs Hstep).
  now destruct (session evs (Some d')) as [outs file'].
Qed.

End Tabs.

(** X11: the Add Book tab never lets the store raise: input that passes
    its guard is appended as one row, any other input changes nothing and
    is reported. *)
Theorem add_book_tab_adds_or_reports
  (t a : string) (y : Z) (g : string) (b : bool) (d : db) :
  add_book_tab t a y g b d =
    if py_truthy t && py_truthy a && py_truthy g && (1000 <=? y) && (y <=? 9999)
    then (Ok (AddedSuccessfully t),
          mkDb (books d ++ [mkRow (next_rowid d) t a y g (if b then 1 else 0)])
               (next_rowid d))
    else (Ok FillAllFields, d).
Proof. apply add_book_tab_outcome. Qed.

(** X12: the Remove Book tab reports success exactly when the title is
    not empty and some row bore it, and then no row bears it any more; in
    every other case the database is left as it was. *)
Theorem remove_book_tab_outcomes (t : string) (d : db) :
  (fst (remove_book_tab t d) = Ok (RemovedSuccessfully t) <->
     t <> ""%string /\ exists r, In r (books d) /\ col_title r = t)
  /\ (fst (remove_book_tab t d) = Ok (RemovedSuccessfully t) ->
      select (title_is t) (snd (remove_book_tab t d)) = [])
  /\ (fst (remove_book_tab t d) = Ok BookNotFound
      \/ fst (remove_book_tab t d) = Ok EnterValidTitle ->
      snd (remove_book_tab t d) = d).
Proof.
  rewrite remove_book_tab_outcome.
  assert (Ht : py_truthy t = true <-> t <> ""%string).
  { unfold py_truthy. rewrite negb_true_iff. apply String.eqb_neq. }
  assert (He : existsb (title_is t) (books d) = true
               <-> exists r, In r (books d) /\ col_title r = t).
  { rewrite existsb_exists. unfold title_is.
    split; intros (r & Hr & E); exists r; split; try exact Hr;
      now apply String.eqb_eq. }
  destruct (py_truthy t) eqn:Et; cbn [andb];
    [destruct (existsb (title_is t) (books d)) eqn:Ee|]; cbn [fst snd].
  - split; [|split].
    + split; [intros _ | reflexivity]. split; [now apply Ht | now apply He].
    + intros _. apply filter_of_rest.
    + intros [H|H]; discriminate H.
  - split; [|split]; [|discriminate|reflexivity].
    split; [discriminate|]. intros (_ & H). apply He in H. discriminate H.
  - split; [|split]; [|discriminate|reflexivity].
    split; [discriminate|]. intros (H & _). apply Ht in H. discriminate H.
Qed.

(** X13: pressing the button of a listed book always finds its title and
    the run ends in a rerun.  The pressed row ends with the complement of
    the flag of the first row of that title, so it flips when no other row
    shares its title. *)
Theorem home_tab_click_sets_pressed_book
  (k : nat) (d : db) (book : row)
  (Hok : read_ok d) (Hk : nth_error (get_library d) k = Some book) :
  exists r0 rest,
    select (title_is (col_title book)) d = r0 :: rest
    /\ fst (home_tab_click k d) = Ok Rerun
    /\ nth_error (books (snd (home_tab_click k d))) k
       = Some (set_read (1 - col_read r0) book)
    /\ (rest = [] -> r0 = book).
Proof.
  unfold home_tab_click. rewrite Hk.
  unfold get_library, select in Hk. rewrite filter_everything in Hk.
  assert (Hin : In book (filter (title_is (col_title book)) (books d))).
  { apply filter_In. split; [now apply nth_error_In with k|].
    apply String.eqb_refl. }
  rewrite toggle_outcome by exact Hok. unfold select.
  destruct (filter (title_is (col_title book)) (books d)) as [|r0 rest] eqn:E;
    [destruct Hin|].
  exists r0, rest. split; [reflexivity|]. split; [reflexivity|]. split.
  - cbn [snd books]. rewrite nth_error_map, Hk. cbn [option_map].
    unfold title_is at 1. now rewrite String.eqb_refl.
  - intros ->. destruct Hin as [H|[]]. exact H.
Qed.

Lemma home_tab_click_sets_pressed_book_witness :
  exists r0 rest,
    select (title_is (col_title (dune 2 0))) mixed_dunes = r0 :: rest
    /\ fst (home_tab_click 1 mixed_dunes) = Ok Rerun
    /\ nth_error (books (snd (home_tab_click 1 mixed_dunes))) 1
       = Some (set_read (1 - col_read r0) (dune 2 0))
    /\ (rest = [] -> r0 = dune 2 0).
Proof.
  exact (home_tab_click_sets_pressed_book 1 mixed_dunes (dune 2 0)
           (proj2 (proj2 wf_mixed_dunes)) eq_refl).
Defined.



(** * Restarts and searches between writes *)

Section Selections.


End Selections.

(** X15: the table outlives the process.  A book that the Add Book tab
    accepted is still in the table, with its id, title, author, year and
    genre, after any later runs of the script, each of which builds the
    manager and runs [CREATE TABLE IF NOT EXISTS] anew, as long as no run
    removes its title and no typed query is longer than the engine
    accepts. *)
Theorem added_book_outlives_restarts
  (t a : string) (y : Z) (g : string) (b : bool)
  (file : option db) (evs : list event)
  (Hvalid : form_valid t a y g = true)
  (Hkeep : forallb (fun ev => negb (removes t ev)) evs = true)
  (Hshort : short_queries evs = true) :
  let d1 := snd (script file (PressAdd t a y g b)) in
  exists rd,
    In (mkRow (next_rowid (create_table file)) t a y g rd)
       (books (create_table (snd (session evs (Some d1))))).
Proof.
  cbv zeta. set (i := next_rowid (create_table file)).
  set (x := mkRow i t a y g (if b then 1 else 0)).
  assert (Hin : In (forget_read x)
                   (map forget_read
                      (books (snd (script file (PressAdd t a y g b)))))).
  { unfold script. rewrite add_book_tab_outcome, Hvalid. cbn [snd books].
    apply in_map. apply in_or_app. right. now left. }
  pose proof (row_kept_by_session x evs _ Hkeep Hin) as H.
  apply in_map_iff in H. destruct H as (r & Er & Hr).
  exists (col_read r).
  replace (mkRow i t a y g (col_read r)) with r; [exact Hr|].
  destruct r as [ri rt ra ry rg rr]. unfold forget_read, set_read, x in Er.
  cbn in Er. injection Er as -> -> -> -> ->. reflexivity.
Qed.

Lemma added_book_outlives_restarts_witness :
  exists rd,
    In (mkRow 1 "Emma" "Austen" 1815 "Novel" rd)
       (books (create_table
                 (snd (session [PressToggle 0; PressRemove "Dune"; TypeQuery "em";
                                PressAdd "Dune" "Herbert" 1965 "Sci-Fi" true]
                         (Some (snd (script None
                                       (PressAdd "Emma" "Austen" 1815 "Novel"
                                                 false)))))))).
Proof.
  exact (added_book_outlives_restarts "Emma" "Austen" 1815 "Novel" false None
           [PressToggle 0; PressRemove "Dune"; TypeQuery "em";
            PressAdd "Dune" "Herbert" 1965 "Sci-Fi" true]
           eq_refl eq_refl eq_refl).
Defined.




